(** * sqlmodel-celery-beat: models.py and util.py, embedded and verified

    The Python sources are embedded shallowly.  Python values that travel
    through dictionaries or attribute lookups are a small tagged union
    ([pyval]); exceptions are an error type ([exn]) and a function that can
    raise returns a [result].  Dictionaries keyed by strings are stdpp
    [gmap]s, and attribute access by name goes through the list of the
    attributes a class declares, so that a name the class does not declare
    raises [AttributeError] exactly as in Python.

    The ModelMixin columns ([id], [created_at], [updated_at]) and the JSON
    columns of [PeriodicTask] ([args], [kwargs], [headers]) are read by none
    of the operations embedded here and are left out of the records.

    The ORM session is a parameter of the code that uses it.  Where the
    libraries decide what a line of models.py does (pydantic's
    [ValidationError] constructor, the constructor of a [table=True] model,
    the dictionary a root validator is given, the lookup of a missing row)
    the definitions follow the libraries. *)

From Stdlib Require Import ZArith QArith Ascii String DecimalString List Bool Lia.
From stdpp Require Import base option strings gmap.

Local Open Scope string_scope.
Local Open Scope Z_scope.

(** ** Exceptions and results *)

(** What a pydantic [ValidationError] is constructed from in models.py:
    either a plain message or a dictionary from field names to messages
    (kept in insertion order). *)
Inductive validation_errors :=
| ErrMsg (msg : string)
| ErrInfo (error_info : list (string * list string)).

Inductive exn :=
| TypeError (msg : string)
| KeyError (key : string)
| AttributeError (attr : string)
| ValueError (msg : string)
| NoResultFound
| ValidationError (errors : validation_errors).

Inductive result (A : Type) :=
| Return (a : A)
| Raise (e : exn).
Arguments Return {A} a.
Arguments Raise {A} e.

#[global] Instance result_ret : MRet result := fun A a => Return a.
#[global] Instance result_bind : MBind result := fun A B k r =>
  match r with
  | Return a => k a
  | Raise e => Raise e
  end.

Definition raises {A} (r : result A) : Prop := exists e, r = Raise e.

(** [raise ValidationError(errors)] as models.py writes it, with a single
    argument.  pydantic's class is constructed from the errors and the
    model, so building the exception is what fails: the statement raises a
    [TypeError], and the errors it was given are lost. *)
Definition raise_ValidationError {A} (errors : validation_errors) : result A :=
  Raise (TypeError "__init__() missing 1 required positional argument: 'model'").

(** ** util.py *)

(** [zoneinfo.ZoneInfo(key)] of the Python standard library. *)
Inductive tz := ZoneInfo (key : string).

(** A [datetime]: the instant it denotes (seconds) and its [tzinfo]. *)
Record datetime := { instant : Z; tzinfo : option tz }.

Definition NEVER_CHECK_TIMEOUT : Z := 9999999999.

(** [datetime.utcnow()] reads the clock and returns a naive datetime;
    the clock reading is an explicit argument. *)
Definition utcnow (clock : Z) : datetime := {| instant := clock; tzinfo := None |}.

Definition replace_tzinfo (value : datetime) (z : tz) : datetime :=
  {| instant := instant value; tzinfo := Some z |}.

Definition nowfun (clock : Z) : datetime :=
  replace_tzinfo (utcnow clock) (ZoneInfo "UTC").

(** The attributes of a [ZoneInfo] object in the standard library; the
    pytz method [localize] is not one of them. *)
Definition zoneinfo_attrs : list string :=
  ["key"; "utcoffset"; "dst"; "tzname"; "fromutc"].

Definition zoneinfo_getattr (z : tz) (attr : string) : result string :=
  if existsb (String.eqb attr) zoneinfo_attrs then Return attr
  else Raise (AttributeError attr).

Definition make_aware (value : datetime) : result datetime :=
  match tzinfo value with
  | None => Return (replace_tzinfo value (ZoneInfo "UTC"))
  | Some _ =>
      (* ZoneInfo("UTC").localize(value): the attribute lookup comes first *)
      _ ← zoneinfo_getattr (ZoneInfo "UTC") "localize";
      Return (replace_tzinfo value (ZoneInfo "UTC"))
  end.

(** ** models.py: the schedule models *)

Inductive IntervalPeriod := DAYS | HOURS | MINUTES | SECONDS.

Record IntervalSchedule := { every : Z; period : IntervalPeriod }.

Inductive SolarEvent :=
| SUNRISE | SUNSET
| DAWN_ASTRONOMICAL | DAWN_CIVIL | DAWN_NAUTICAL
| DUSK_ASTRONOMICAL | DUSK_CIVIL | DUSK_NAUTICAL
| SOLAR_NOON.

(** A Python [float]: a finite value (every binary64 number is a rational),
    an infinity, or NaN.  Ordered comparisons involving NaN are false. *)
Inductive pyfloat :=
| Finite (q : Q)
| Infinity (negative : bool)
| NaN.

(** [v < n] and [v > n] for a float [v] and an integer literal [n]. *)
Definition float_lt_int (v : pyfloat) (n : Z) : bool :=
  match v with
  | Finite q => match (q ?= inject_Z n)%Q with Lt => true | _ => false end
  | Infinity negative => negative
  | NaN => false
  end.

Definition float_gt_int (v : pyfloat) (n : Z) : bool :=
  match v with
  | Finite q => match (q ?= inject_Z n)%Q with Gt => true | _ => false end
  | Infinity negative => negb negative
  | NaN => false
  end.

Record SolarSchedule := {
  event : SolarEvent;
  latitude : pyfloat;
  longitude : pyfloat
}.

Definition validate_latitude (v : pyfloat) : result pyfloat :=
  if float_lt_int v (-90) || float_gt_int v 90
  then Raise (ValueError "latitude must be between -90 and 90")
  else Return v.

Definition validate_longitude (v : pyfloat) : result pyfloat :=
  if float_lt_int v (-180) || float_gt_int v 180
  then Raise (ValueError "longitude must be between -180 and 180")
  else Return v.

(** An instance as the constructor leaves it: a column whose value was not
    set reads as [None]. *)
Record SolarSchedule_instance := {
  inst_event : SolarEvent;
  inst_latitude : option pyfloat;
  inst_longitude : option pyfloat
}.

(** What validation keeps of a field: the validated value, or nothing when
    the field's validator raised. *)
Definition validated {A} (r : result A) : option A :=
  match r with
  | Return a => Some a
  | Raise _ => None
  end.

(** [SolarSchedule(event=..., latitude=..., longitude=...)].  The class is
    declared [table=True]: the constructor of such a model runs the field
    validators, does not raise the errors they gave, and sets the fields
    that passed. *)
Definition new_SolarSchedule (ev : SolarEvent) (lat lon : pyfloat)
  : result SolarSchedule_instance :=
  Return {| inst_event := ev;
            inst_latitude := validated (validate_latitude lat);
            inst_longitude := validated (validate_longitude lon) |}.

(** [SolarSchedule.schedule] hands celery the event, the coordinates and a
    now-function; the celery object is represented by what it was built
    from. *)
Record solar_schedule := {
  sol_event : SolarEvent;
  sol_lat : pyfloat;
  sol_lon : pyfloat;
  sol_nowfun : Z -> result datetime
}.

Definition SolarSchedule_schedule (self : SolarSchedule) : solar_schedule :=
  {| sol_event := event self;
     sol_lat := latitude self;
     sol_lon := longitude self;
     sol_nowfun := fun clock => make_aware (nowfun clock) |}.

Record ClockedSchedule := { clocked_time : datetime }.

Record CrontabSchedule := {
  minute : string;
  hour : string;
  day_of_week : string;
  day_of_month : string;
  month_of_year : string
}.

(** The [max_length] each crontab column is declared with. *)
Inductive crontab_field :=
| F_minute | F_hour | F_day_of_week | F_day_of_month | F_month_of_year.

Definition max_length (f : crontab_field) : nat :=
  match f with
  | F_minute => 60 * 4
  | F_hour => 24 * 4
  | F_day_of_week => 64
  | F_day_of_month => 31 * 4
  | F_month_of_year => 64
  end%nat.

(** The [max_length] constraint on a string field: a longer string is
    rejected, any other is kept as it is. *)
Definition check_max_length (f : crontab_field) (s : string) : result string :=
  if (String.length s <=? max_length f)%nat then Return s
  else Raise (ValueError "ensure this value has at most max_length characters").

(** The expanded form the comment above the columns speaks of: the text of
    a Python list of all the values of a field, as ['[1, 2, ..., 31]']. *)
Definition decimal (n : nat) : string :=
  NilEmpty.string_of_uint (Nat.to_uint n).

Fixpoint comma_join (l : list string) : string :=
  match l with
  | [] => ""
  | [x] => x
  | x :: rest => x ++ ", " ++ comma_join rest
  end.

Definition list_repr (l : list nat) : string :=
  "[" ++ comma_join (map decimal l) ++ "]".

Definition field_values (f : crontab_field) : list nat :=
  match f with
  | F_minute => seq 0 60
  | F_hour => seq 0 24
  | F_day_of_week => seq 0 7
  | F_day_of_month => seq 1 31
  | F_month_of_year => seq 1 12
  end.

Definition worst_case (f : crontab_field) : string := list_repr (field_values f).

(** ** models.py: the change tracker and the periodic task *)

Record PeriodicTasksChanged := { ident : Z; last_update : datetime }.

Record PeriodicTask := {
  name : string;
  task : string;
  interval_id : option Z;
  interval : option IntervalSchedule;
  crontab_id : option Z;
  cron : option CrontabSchedule;
  solar_id : option Z;
  solar : option SolarSchedule;
  clocked_id : option Z;
  clocked : option ClockedSchedule;
  queue : option string;
  exchange : option string;
  routing_key : option string;
  priority : option Z;
  expires : option datetime;
  expire_seconds : option Z;
  one_off : bool;
  start_time : option datetime;
  enabled : bool;
  last_run_at : option datetime;
  total_run_count : Z;
  date_changed : datetime;
  description : option string;
  no_changes : bool
}.

(** [self.last_run_at = value] *)
Definition set_last_run_at (value : option datetime) (self : PeriodicTask)
  : PeriodicTask :=
  {| name := name self; task := task self;
     interval_id := interval_id self; interval := interval self;
     crontab_id := crontab_id self; cron := cron self;
     solar_id := solar_id self; solar := solar self;
     clocked_id := clocked_id self; clocked := clocked self;
     queue := queue self; exchange := exchange self;
     routing_key := routing_key self; priority := priority self;
     expires := expires self; expire_seconds := expire_seconds self;
     one_off := one_off self; start_time := start_time self;
     enabled := enabled self; last_run_at := value;
     total_run_count := total_run_count self;
     date_changed := date_changed self;
     description := description self; no_changes := no_changes self |}.

(** Python values as they appear in the validator's dictionary and behind
    attribute lookups. *)
Inductive pyval :=
| PNone
| PBool (b : bool)
| PInt (n : Z)
| PStr (s : string)
| PDatetime (d : datetime)
| PIntervalSchedule (i : IntervalSchedule)
| PCrontabSchedule (c : CrontabSchedule)
| PSolarSchedule (s : SolarSchedule)
| PClockedSchedule (c : ClockedSchedule).

(** Truth value of a Python object: [None], [False], [0] and [''] are
    false; datetimes and model instances are true. *)
Definition truthy (v : pyval) : bool :=
  match v with
  | PNone => false
  | PBool b => b
  | PInt n => negb (n =? 0)
  | PStr s => negb (String.eqb s "")
  | _ => true
  end.

Definition is_not_None (v : pyval) : bool :=
  match v with PNone => false | _ => true end.

Definition optional {A} (inj : A -> pyval) (o : option A) : pyval :=
  match o with Some a => inj a | None => PNone end.

(** The fields of a [PeriodicTask], under the names the class declares
    them with. *)
Definition PeriodicTask_fields (self : PeriodicTask) : list (string * pyval) :=
  [ ("name", PStr (name self));
    ("task", PStr (task self));
    ("interval_id", optional PInt (interval_id self));
    ("interval", optional PIntervalSchedule (interval self));
    ("crontab_id", optional PInt (crontab_id self));
    ("cron", optional PCrontabSchedule (cron self));
    ("solar_id", optional PInt (solar_id self));
    ("solar", optional PSolarSchedule (solar self));
    ("clocked_id", optional PInt (clocked_id self));
    ("clocked", optional PClockedSchedule (clocked self));
    ("queue", optional PStr (queue self));
    ("exchange", optional PStr (exchange self));
    ("routing_key", optional PStr (routing_key self));
    ("priority", optional PInt (priority self));
    ("expires", optional PDatetime (expires self));
    ("expire_seconds", optional PInt (expire_seconds self));
    ("one_off", PBool (one_off self));
    ("start_time", optional PDatetime (start_time self));
    ("enabled", PBool (enabled self));
    ("last_run_at", optional PDatetime (last_run_at self));
    ("total_run_count", PInt (total_run_count self));
    ("date_changed", PDatetime (date_changed self));
    ("description", optional PStr (description self));
    ("no_changes", PBool (no_changes self)) ].

Fixpoint assoc (k : string) (l : list (string * pyval)) : option pyval :=
  match l with
  | [] => None
  | (k', v) :: rest => if String.eqb k k' then Some v else assoc k rest
  end.

(** [self.<attr>] on a [PeriodicTask] for a data attribute. *)
Definition getattr (self : PeriodicTask) (attr : string) : result pyval :=
  match assoc attr (PeriodicTask_fields self) with
  | Some v => Return v
  | None => Raise (AttributeError attr)
  end.

(** The record as a dictionary: every attribute of [PeriodicTask_fields]
    under its name, the four relationship attributes included. *)
Definition values_of (self : PeriodicTask) : gmap string pyval :=
  list_to_map (PeriodicTask_fields self).

(** The attributes declared with [Relationship(...)]: they are not
    pydantic fields. *)
Definition relationships : list string := ["interval"; "cron"; "solar"; "clocked"].

(** The [values] dictionary the root validator is given when a record is
    constructed: the pydantic fields only, without the relationships. *)
Definition validator_values (self : PeriodicTask) : gmap string pyval :=
  list_to_map
    (List.filter (fun kv => negb (existsb (String.eqb (fst kv)) relationships))
                 (PeriodicTask_fields self)).

(** [values.get(k)] and [values[k]] *)
Definition dict_get (values : gmap string pyval) (k : string) : pyval :=
  default PNone (values !! k).

Definition getitem (values : gmap string pyval) (k : string) : result pyval :=
  match values !! k with
  | Some v => Return v
  | None => Raise (KeyError k)
  end.

Definition schedule_types : list string :=
  ["interval"; "crontab"; "solar"; "clocked"].

Definition selected_schedule_types (values : gmap string pyval) : list string :=
  List.filter (fun s => is_not_None (dict_get values s)) schedule_types.

Definition missing_msg : string :=
  "One of clocked, interval, crontab, or solar must be set.".
Definition err_msg : string :=
  "Only one of clocked, interval, crontab, or solar must be set".
Definition clocked_msg : string :=
  "clocked must be one off, one_off must set True".
Definition expires_msg : string :=
  "Only one can be set, in expires and expire_seconds".

(** The three rules of [validate_unique], in the order of the source. *)
Definition rule_one_schedule (values : gmap string pyval) : result unit :=
  let selected := selected_schedule_types values in
  if (length selected =? 0)%nat then
    raise_ValidationError (ErrMsg missing_msg)
  else if (1 <? length selected)%nat then
    raise_ValidationError (ErrInfo (map (fun s => (s, [err_msg])) selected))
  else Return tt.

Definition rule_clocked_one_off (values : gmap string pyval) : result unit :=
  c ← getitem values "clocked";
  if truthy c then
    o ← getitem values "one_off";
    if negb (truthy o) then raise_ValidationError (ErrMsg clocked_msg)
    else Return tt
  else Return tt.

Definition rule_expires (values : gmap string pyval) : result unit :=
  s ← getitem values "expires_seconds";
  if is_not_None s then
    e ← getitem values "expires";
    if is_not_None e then raise_ValidationError (ErrMsg expires_msg)
    else Return tt
  else Return tt.

Definition validate_unique (values : gmap string pyval) : result pyval :=
  _ ← rule_one_schedule values;
  _ ← rule_clocked_one_off values;
  _ ← rule_expires values;
  Return PNone.

(** The root validator applied to the record with all its attributes. *)
Definition validate (self : PeriodicTask) : result pyval :=
  validate_unique (values_of self).

(** [PeriodicTask.scheduler]: the first reference that is set, probed by
    attribute name; falling off the end returns [None]. *)
Definition scheduler (self : PeriodicTask) : result pyval :=
  i ← getattr self "interval";
  if truthy i then Return i else
  c ← getattr self "crontab";
  if truthy c then Return c else
  s ← getattr self "solar";
  if truthy s then Return s else
  k ← getattr self "clocked";
  if truthy k then Return k else
  Return PNone.

(** The celery schedule objects, represented by what they are built from. *)
Inductive celery_schedule :=
| interval_sched (every : Z) (period : IntervalPeriod)
| crontab_sched (c : CrontabSchedule)
| solar_sched (s : solar_schedule)
| clocked_sched (clocked_time : datetime).

(** [obj.schedule] on whatever [scheduler] returned. *)
Definition schedule_attr (obj : pyval) : result celery_schedule :=
  match obj with
  | PIntervalSchedule i => Return (interval_sched (every i) (period i))
  | PCrontabSchedule c => Return (crontab_sched c)
  | PSolarSchedule s => Return (solar_sched (SolarSchedule_schedule s))
  | PClockedSchedule c => Return (clocked_sched (clocked_time c))
  | _ => Raise (AttributeError "schedule")
  end.

(** [PeriodicTask.schedule] *)
Definition schedule (self : PeriodicTask) : result celery_schedule :=
  obj ← scheduler self;
  schedule_attr obj.

(** ** The session and the lifecycle operations *)

(** Code that works on a session both changes it and may raise: a
    computation takes the state and returns its outcome with the state it
    leaves behind (an exception does not undo what was done before it). *)
Definition M (S A : Type) : Type := S -> result A * S.

#[global] Instance M_ret {S} : MRet (M S) := fun A a s => (Return a, s).
#[global] Instance M_bind {S} : MBind (M S) := fun A B k m s =>
  match m s with
  | (Return a, s') => k a s'
  | (Raise e, s') => (Raise e, s')
  end.

Definition throw {S A} (e : exn) : M S A := fun s => (Raise e, s).

Definition lift {S A} (r : result A) : M S A := fun s => (r, s).

(** [try: body except <handled>: handler] *)
Definition try_except {S A} (body : M S A) (handler : exn -> option (M S A))
  : M S A := fun s =>
  match body s with
  | (Return a, s') => (Return a, s')
  | (Raise e, s') =>
      match handler e with
      | Some h => h s'
      | None => (Raise e, s')
      end
  end.

(** The operations of the ORM session that models.py calls.  [session_get]
    is [session.get(PeriodicTasksChanged, ident=...)]: it may hand back a
    row, hand back [None], or raise. *)
Class Orm (S : Type) := {
  session_add : PeriodicTask -> M S unit;
  session_commit : M S unit;
  session_delete : PeriodicTask -> M S unit;
  session_get : Z -> M S (option PeriodicTasksChanged)
}.

(** A positional argument at a call site. *)
Inductive pyarg :=
| ArgSession
| ArgTask (instance : PeriodicTask).

(** The attributes of the class [PeriodicTasksChanged]: its columns, its
    class methods and what [ModelMixin] gives it.  There is no [objects]. *)
Definition PeriodicTasksChanged_attrs : list string :=
  ["ident"; "last_update"; "changed"; "update_changed"; "last_change";
   "id"; "created_at"; "updated_at"; "create"; "update"; "save"].

Definition PeriodicTasksChanged_getattr (attr : string) : result string :=
  if existsb (String.eqb attr) PeriodicTasksChanged_attrs then Return attr
  else Raise (AttributeError attr).

Section Lifecycle.
Context {S : Type} `{Orm S}.

(** What [update_or_create(ident=..., defaults={"last_update": ...})]
    would do on a manager [cls.objects]. *)
Variable update_or_create : Z -> datetime -> M S unit.

(** The reading of the clock while the operation runs. *)
Variable clock : Z.

(** [ModelMixin.save] *)
Definition ModelMixin_save (self : PeriodicTask) : M S unit :=
  _ ← session_add self;
  session_commit.

(** [update_changed(cls, session, **kwargs)]: one positional parameter
    besides [cls]. *)
Definition update_changed (args : list pyarg) : M S unit :=
  match args with
  | [] =>
      throw (TypeError "update_changed() missing 1 required positional argument: 'session'")
  | [_] =>
      (* cls.objects is looked up before the call and its arguments *)
      _ ← lift (PeriodicTasksChanged_getattr "objects");
      update_or_create 1 (nowfun clock)
  | _ => throw (TypeError "update_changed() takes 2 positional arguments")
  end.

Definition arg_no_changes (a : pyarg) : M S pyval :=
  match a with
  | ArgTask instance => lift (getattr instance "no_changes")
  | ArgSession => throw (AttributeError "no_changes")
  end.

(** [changed(cls, session, instance, **kwargs)]: two positional
    parameters besides [cls]. *)
Definition changed (args : list pyarg) : M S unit :=
  match args with
  | [] =>
      throw (TypeError "changed() missing 2 required positional arguments: 'session' and 'instance'")
  | [_] =>
      throw (TypeError "changed() missing 1 required positional argument: 'instance'")
  | [_; instance] =>
      nc ← arg_no_changes instance;
      if negb (truthy nc) then update_changed [] else mret tt
  | _ => throw (TypeError "changed() takes 3 positional arguments")
  end.

(** [last_change(cls, session)] *)
Definition last_change : M S (option datetime) :=
  try_except
    (row ← session_get 1;
     match row with
     | Some r => mret (Some (last_update r))
     | None => throw (AttributeError "last_update")
     end)
    (fun e => match e with
              | NoResultFound => Some (mret None)
              | _ => None
              end).

(** [PeriodicTask.save]: the outcome, [self] as the call leaves it, and
    the session. *)
Definition save (self : PeriodicTask) (s : S)
  : result unit * PeriodicTask * S :=
  let self := if negb (enabled self) then set_last_run_at None self else self in
  let '(r, s') := (_ ← session_add self;
                   _ ← session_commit;
                   changed [ArgTask self]) s in
  (r, self, s').

(** [PeriodicTask.delete] *)
Definition delete (self : PeriodicTask) : M S unit :=
  _ ← session_delete self;
  changed [ArgTask self].

End Lifecycle.

(** *** An in-memory session

    What was added and not yet committed, the committed rows, what was
    marked for deletion, and the single change-tracker row.  A lookup of a
    missing row returns [None], as [Session.get] does. *)
Record Store := {
  pending : list PeriodicTask;
  rows : list PeriodicTask;
  removed : list PeriodicTask;
  tracker : option PeriodicTasksChanged
}.

Definition Store_add (t : PeriodicTask) : M Store unit := fun s =>
  (Return tt, {| pending := pending s ++ [t]; rows := rows s;
                 removed := removed s; tracker := tracker s |}).

Definition Store_commit : M Store unit := fun s =>
  (Return tt, {| pending := []; rows := rows s ++ pending s;
                 removed := removed s; tracker := tracker s |}).

Definition Store_delete (t : PeriodicTask) : M Store unit := fun s =>
  (Return tt, {| pending := pending s; rows := rows s;
                 removed := removed s ++ [t]; tracker := tracker s |}).

Definition Store_get (i : Z) : M Store (option PeriodicTasksChanged) := fun s =>
  match tracker s with
  | Some r => if ident r =? i then (Return (Some r), s) else (Return None, s)
  | None => (Return None, s)
  end.

#[global] Instance Store_orm : Orm Store := {|
  session_add := Store_add;
  session_commit := Store_commit;
  session_delete := Store_delete;
  session_get := Store_get
|}.

Definition Store_update_or_create (i : Z) (d : datetime) : M Store unit := fun s =>
  (Return tt, {| pending := pending s; rows := rows s; removed := removed s;
                 tracker := Some {| ident := i; last_update := d |} |}).

Definition empty_store : Store :=
  {| pending := []; rows := []; removed := []; tracker := None |}.

(** ** Sample records *)

Definition epoch (t : Z) : datetime := {| instant := t; tzinfo := Some (ZoneInfo "UTC") |}.

Definition every_10_seconds : IntervalSchedule := {| every := 10; period := SECONDS |}.
Definition hourly : CrontabSchedule :=
  {| minute := "0"; hour := "*"; day_of_week := "*";
     day_of_month := "*"; month_of_year := "*" |}.
Definition sunrise_nyc : SolarSchedule :=
  {| event := SUNRISE; latitude := Finite (407128 # 10000);
     longitude := Finite (- 740060 # 10000) |}.
Definition at_noon : ClockedSchedule := {| clocked_time := epoch 43200 |}.

(** A task with no schedule reference at all. *)
Definition bare_task : PeriodicTask :=
  {| name := "t"; task := "proj.tasks.t";
     interval_id := None; interval := None;
     crontab_id := None; cron := None;
     solar_id := None; solar := None;
     clocked_id := None; clocked := None;
     queue := None; exchange := None; routing_key := None; priority := None;
     expires := None; expire_seconds := None; one_off := false;
     start_time := None; enabled := true; last_run_at := None;
     total_run_count := 0; date_changed := epoch 0;
     description := None; no_changes := false |}.

Definition with_schedules (i : option IntervalSchedule) (c : option CrontabSchedule)
    (s : option SolarSchedule) (k : option ClockedSchedule) (self : PeriodicTask)
  : PeriodicTask :=
  {| name := name self; task := task self;
     interval_id := interval_id self; interval := i;
     crontab_id := crontab_id self; cron := c;
     solar_id := solar_id self; solar := s;
     clocked_id := clocked_id self; clocked := k;
     queue := queue self; exchange := exchange self;
     routing_key := routing_key self; priority := priority self;
     expires := expires self; expire_seconds := expire_seconds self;
     one_off := one_off self; start_time := start_time self;
     enabled := enabled self; last_run_at := last_run_at self;
     total_run_count := total_run_count self;
     date_changed := date_changed self;
     description := description self; no_changes := no_changes self |}.

Definition with_flags (one_off' enabled' : bool) (last_run : option datetime)
    (exp : option datetime) (exp_s : option Z) (self : PeriodicTask)
  : PeriodicTask :=
  {| name := name self; task := task self;
     interval_id := interval_id self; interval := interval self;
     crontab_id := crontab_id self; cron := cron self;
     solar_id := solar_id self; solar := solar self;
     clocked_id := clocked_id self; clocked := clocked self;
     queue := queue self; exchange := exchange self;
     routing_key := routing_key self; priority := priority self;
     expires := exp; expire_seconds := exp_s;
     one_off := one_off'; start_time := start_time self;
     enabled := enabled'; last_run_at := last_run;
     total_run_count := total_run_count self;
     date_changed := date_changed self;
     description := description self; no_changes := no_changes self |}.

Definition interval_task : PeriodicTask :=
  with_schedules (Some every_10_seconds) None None None bare_task.
Definition solar_task : PeriodicTask :=
  with_schedules None None (Some sunrise_nyc) None bare_task.
Definition clocked_task (one_off' : bool) : PeriodicTask :=
  with_flags one_off' true None None None
    (with_schedules None None None (Some at_noon) bare_task).


Definition disabled_task : PeriodicTask :=
  with_flags false false (Some (epoch 50)) None None interval_task.
Definition both_expiries_task : PeriodicTask :=
  with_flags false true None (Some (epoch 900)) (Some 60) interval_task.

(** ** models.py: the remaining functions *)

(** Truth value of a [str]: only the empty string is false. *)
Definition str_truthy (s : string) : bool := negb (String.eqb s "").

(** [s.replace(" ", "")]: every space character is dropped. *)
Fixpoint remove_spaces (s : string) : string :=
  match s with
  | EmptyString => EmptyString
  | String c rest =>
      if Ascii.eqb c " "%char then remove_spaces rest
      else String c (remove_spaces rest)
  end.

(** [cronexp]: [field and str(field).replace(" ", "") or "*"]. *)
Definition cronexp (field : string) : string :=
  let stripped := if str_truthy field then remove_spaces field else field in
  if str_truthy stripped then stripped else "*".

(** The data attributes [CrontabSchedule] declares, all of them strings. *)
Definition CrontabSchedule_fields (self : CrontabSchedule) : list (string * string) :=
  [ ("minute", minute self);
    ("hour", hour self);
    ("day_of_week", day_of_week self);
    ("day_of_month", day_of_month self);
    ("month_of_year", month_of_year self) ].

Fixpoint str_assoc (k : string) (l : list (string * string)) : option string :=
  match l with
  | [] => None
  | (k', v) :: rest => if String.eqb k k' then Some v else str_assoc k rest
  end.

Definition CrontabSchedule_getattr (self : CrontabSchedule) (attr : string)
  : result string :=
  match str_assoc attr (CrontabSchedule_fields self) with
  | Some v => Return v
  | None => Raise (AttributeError attr)
  end.

(** The five normalised fields in the order [__str__] and [human_readable]
    print them: minute, hour, day of month, month of year, day of week. *)
Definition cron_fields (self : CrontabSchedule) : list string :=
  [ cronexp (minute self); cronexp (hour self); cronexp (day_of_month self);
    cronexp (month_of_year self); cronexp (day_of_week self) ].

(** ["{} {} {} {} {}".format(...)] of the five fields. *)
Definition cron_expression (self : CrontabSchedule) : string :=
  cronexp (minute self) ++ " " ++ cronexp (hour self) ++ " "
  ++ cronexp (day_of_month self) ++ " " ++ cronexp (month_of_year self) ++ " "
  ++ cronexp (day_of_week self).

(** [CrontabSchedule.__str__]: the five fields are formatted first, then
    [str(self.timezone)] is evaluated. *)
Definition CrontabSchedule_str (self : CrontabSchedule) : result string :=
  let expression := cron_expression self in
  timezone ← CrontabSchedule_getattr self "timezone";
  Return (expression ++ " (m/h/dM/MY/d) " ++ timezone).

Section HumanReadable.

(** [cron_descriptor.get_description], and which of the exceptions it
    raises are among the three that [human_readable] catches. *)
Variable get_description : string -> result string.
Variable caught : exn -> bool.

(** [CrontabSchedule.human_readable] *)
Definition human_readable (self : CrontabSchedule) : result string :=
  let expression := cron_expression self in
  match get_description expression with
  | Return description =>
      timezone ← CrontabSchedule_getattr self "timezone";
      Return (description ++ " " ++ timezone)
  | Raise e =>
      if caught e then
        timezone ← CrontabSchedule_getattr self "timezone";
        Return (expression ++ " " ++ timezone)
      else Raise e
  end.

End HumanReadable.

(** [s.split(sep)] for a one-character separator. *)
Fixpoint split_on (sep : Ascii.ascii) (s : string) : list string :=
  match s with
  | EmptyString => [EmptyString]
  | String c rest =>
      if Ascii.eqb c sep then EmptyString :: split_on sep rest
      else match split_on sep rest with
           | first :: others => String c first :: others
           | [] => [String c EmptyString]
           end
  end.

Definition has_no_space (s : string) : Prop :=
  ~ In " "%char (list_ascii_of_string s).

(** [PeriodicTask.expires_]: [self.expires or self.expire_seconds]. *)
Definition expires_ (self : PeriodicTask) : pyval :=
  let e := optional PDatetime (expires self) in
  if truthy e then e else optional PInt (expire_seconds self).

Section TaskStr.

(** [fmt.format(self)] *)
Variable format : string -> PeriodicTask -> result string.

(** [PeriodicTask.__str__]: each of the four references is read in turn,
    a later one that is set replacing the format chosen so far. *)
Definition PeriodicTask_str (self : PeriodicTask) : result string :=
  let fmt := "{0.name}: {{no schedule}}" in
  i ← getattr self "interval";
  let fmt := if truthy i then "{0.name}: {0.interval}" else fmt in
  c ← getattr self "crontab";
  let fmt := if truthy c then "{0.name}: {0.crontab}" else fmt in
  s ← getattr self "solar";
  let fmt := if truthy s then "{0.name}: {0.solar}" else fmt in
  k ← getattr self "clocked";
  let fmt := if truthy k then "{0.name}: {0.clocked}" else fmt in
  format fmt self.

End TaskStr.

(** A dictionary with every key [validate_unique] reads. *)
Definition sample_values : gmap string pyval :=
  <["interval" := PIntervalSchedule every_10_seconds]>
  (<["clocked" := PNone]>
  (<["one_off" := PBool false]>
  (<["expires_seconds" := PInt 60]>
  (<["expires" := PNone]> ∅)))).

(** ** Ranges of coordinates, as intervals of the number line *)

Definition within (lo hi : Z) (v : pyfloat) : Prop :=
  match v with
  | Finite q => (inject_Z lo <= q /\ q <= inject_Z hi)%Q
  | _ => False
  end.

Definition outside (lo hi : Z) (v : pyfloat) : Prop :=
  match v with
  | Finite q => (q < inject_Z lo \/ inject_Z hi < q)%Q
  | Infinity _ => True
  | NaN => False
  end.

(** * Properties *)

(** ** util.py: [make_aware] *)

Lemma make_aware_naive (value : datetime) :
  tzinfo value = None ->
  make_aware value = Return (replace_tzinfo value (ZoneInfo "UTC")).
Proof. intros Hnaive. unfold make_aware. now rewrite Hnaive. Qed.

Lemma make_aware_aware (value : datetime) (z : tz) :
  tzinfo value = Some z ->
  make_aware value = Raise (AttributeError "localize").
Proof. intros Haware. unfold make_aware. now rewrite Haware. Qed.

Lemma nowfun_aware (clock : Z) : tzinfo (nowfun clock) = Some (ZoneInfo "UTC").
Proof. reflexivity. Qed.

(** C3. The now-function that [SolarSchedule.schedule] gives to celery is
    [make_aware(nowfun())].  [nowfun()] is always timezone-aware, so
    [make_aware] takes the branch that calls [localize] on a [ZoneInfo],
    which has no such attribute: for every solar schedule and every reading
    of the clock the now-function raises [AttributeError]. *)
Theorem solar_nowfun_raises (self : SolarSchedule) (clock : Z) :
  sol_nowfun (SolarSchedule_schedule self) clock
  = Raise (AttributeError "localize").
Proof.
  unfold SolarSchedule_schedule; cbn [sol_nowfun].
  apply (make_aware_aware _ (ZoneInfo "UTC")), nowfun_aware.
Qed.

(** ** models.py: [SolarSchedule] validators *)

Lemma float_lt_int_spec (v : pyfloat) (n : Z) :
  float_lt_int v n = true <->
  match v with
  | Finite q => (q < inject_Z n)%Q
  | Infinity negative => negative = true
  | NaN => False
  end.
Proof.
  destruct v as [q | negative |]; cbn.
  - rewrite Qlt_alt. destruct (q ?= inject_Z n)%Q; split; congruence.
  - reflexivity.
  - split; [discriminate | tauto].
Qed.

Lemma float_gt_int_spec (v : pyfloat) (n : Z) :
  float_gt_int v n = true <->
  match v with
  | Finite q => (inject_Z n < q)%Q
  | Infinity negative => negative = false
  | NaN => False
  end.
Proof.
  destruct v as [q | negative |]; cbn.
  - rewrite Qgt_alt. destruct (q ?= inject_Z n)%Q; split; congruence.
  - destruct negative; cbn; split; congruence.
  - split; [discriminate | tauto].
Qed.

Lemma outside_detected (lo hi : Z) (v : pyfloat) :
  outside lo hi v -> float_lt_int v lo || float_gt_int v hi = true.
Proof.
  intros Hout. apply orb_true_iff.
  rewrite float_lt_int_spec, float_gt_int_spec.
  destruct v as [q | [|] |]; cbn in *; tauto.
Qed.

Lemma within_accepted (lo hi : Z) (v : pyfloat) :
  within lo hi v -> float_lt_int v lo || float_gt_int v hi = false.
Proof.
  intros Hin. apply not_true_is_false. intros Hbad.
  apply orb_true_iff in Hbad.
  rewrite float_lt_int_spec, float_gt_int_spec in Hbad.
  destruct v as [q | negative |]; cbn in *; try tauto.
  destruct Hin as [Hlo Hhi], Hbad as [Hbad | Hbad].
  - now apply Qle_not_lt in Hlo.
  - now apply Qle_not_lt in Hhi.
Qed.

Lemma validate_latitude_outside (v : pyfloat) :
  outside (-90) 90 v ->
  validate_latitude v = Raise (ValueError "latitude must be between -90 and 90").
Proof. intros Hout. unfold validate_latitude. now rewrite outside_detected. Qed.

Lemma validate_latitude_within (v : pyfloat) :
  within (-90) 90 v -> validate_latitude v = Return v.
Proof. intros Hin. unfold validate_latitude. now rewrite within_accepted. Qed.

Lemma validate_longitude_outside (v : pyfloat) :
  outside (-180) 180 v ->
  validate_longitude v = Raise (ValueError "longitude must be between -180 and 180").
Proof. intros Hout. unfold validate_longitude. now rewrite outside_detected. Qed.

Lemma validate_longitude_within (v : pyfloat) :
  within (-180) 180 v -> validate_longitude v = Return v.
Proof. intros Hin. unfold validate_longitude. now rewrite within_accepted. Qed.

(** A validator either raises its [ValueError] or returns its argument:
    no value is ever replaced by another one. *)
Lemma validate_latitude_no_clamp (v w : pyfloat) :
  validate_latitude v = Return w -> w = v.
Proof. unfold validate_latitude. destruct (_ || _); congruence. Qed.

Lemma validate_longitude_no_clamp (v w : pyfloat) :
  validate_longitude v = Return w -> w = v.
Proof. unfold validate_longitude. destruct (_ || _); congruence. Qed.

(** NaN is neither below the lower bound nor above the upper one, so the
    comparisons let it through. *)
Lemma validate_latitude_nan : validate_latitude NaN = Return NaN.
Proof. reflexivity. Qed.

(** What the constructor stores: an out-of-range coordinate is left
    unset, one inside its range is stored as given. *)
Lemma new_SolarSchedule_stores (ev : SolarEvent) (lat lon : pyfloat) :
  exists inst,
    new_SolarSchedule ev lat lon = Return inst
    /\ inst_event inst = ev
    /\ (outside (-90) 90 lat -> inst_latitude inst = None)
    /\ (outside (-180) 180 lon -> inst_longitude inst = None)
    /\ (within (-90) 90 lat -> inst_latitude inst = Some lat)
    /\ (within (-180) 180 lon -> inst_longitude inst = Some lon).
Proof.
  eexists. split; [reflexivity |]. cbn.
  repeat split; intros Hrange.
  - now rewrite (validate_latitude_outside _ Hrange).
  - now rewrite (validate_longitude_outside _ Hrange).
  - now rewrite (validate_latitude_within _ Hrange).
  - now rewrite (validate_longitude_within _ Hrange).
Qed.

(** C8. Constructing a [SolarSchedule] never raises, whatever the
    coordinates: the class is a table model, whose constructor does not
    raise what the validators raised.  With latitude 91 the validator
    raises its [ValueError], and the constructor returns an instance whose
    latitude is unset. *)
Theorem new_SolarSchedule_never_raises :
  (forall ev lat lon, exists inst, new_SolarSchedule ev lat lon = Return inst)
  /\ validate_latitude (Finite (91 # 1))
     = Raise (ValueError "latitude must be between -90 and 90")
  /\ new_SolarSchedule SUNRISE (Finite (91 # 1)) (Finite (-74 # 1))
     = Return {| inst_event := SUNRISE;
                 inst_latitude := None;
                 inst_longitude := Some (Finite (-74 # 1)) |}.
Proof.
  split; [| split; reflexivity].
  intros ev lat lon. unfold new_SolarSchedule. eauto.
Qed.

(** ** models.py: [CrontabSchedule] column widths *)

Lemma worst_case_lengths :
  String.length (worst_case F_minute) = 230%nat
  /\ String.length (worst_case F_hour) = 86%nat
  /\ String.length (worst_case F_day_of_month) = 115%nat
  /\ String.length (worst_case F_month_of_year) = 39%nat
  /\ String.length (worst_case F_day_of_week) = 21%nat.
Proof. repeat split; vm_compute; reflexivity. Qed.

Lemma check_max_length_too_long (f : crontab_field) (s : string) :
  (max_length f < String.length s)%nat -> raises (check_max_length f s).
Proof.
  intros Hlong. unfold check_max_length, raises.
  destruct (Nat.leb_spec (String.length s) (max_length f)); [lia | eauto].
Qed.

(** C9. The declared widths are 240 (minute), 96 (hour), 124 (day of
    month) and 64 (day of week, month of year); a string of at most that
    many characters is admitted unchanged, and the expanded list of all
    values of each field fits its column. *)
Theorem crontab_widths :
  (max_length F_minute = 240 /\ max_length F_hour = 96
   /\ max_length F_day_of_month = 124
   /\ max_length F_day_of_week = 64 /\ max_length F_month_of_year = 64)%nat
  /\ (forall f s, (String.length s <= max_length f)%nat ->
                  check_max_length f s = Return s)
  /\ (forall f, check_max_length f (worst_case f) = Return (worst_case f)).
Proof.
  split; [repeat split | split].
  - intros f s Hfits. unfold check_max_length.
    destruct (Nat.leb_spec (String.length s) (max_length f)); [reflexivity | lia].
  - intros []; vm_compute; reflexivity.
Qed.

Lemma crontab_widths_witness :
  check_max_length F_day_of_month "1,2,3,4,5,6,7,8,9,10,11,12,13,14,15"
  = Return "1,2,3,4,5,6,7,8,9,10,11,12,13,14,15".
Proof.
  apply (proj1 (proj2 crontab_widths)). vm_compute. lia.
Defined.

(** ** models.py: [PeriodicTask.validate_unique] *)

(** What the validator finds under the keys it reads, for the dictionary
    of a record. *)
Lemma values_interval (self : PeriodicTask) :
  values_of self !! "interval" = Some (optional PIntervalSchedule (interval self)).
Proof. reflexivity. Qed.

Lemma values_crontab (self : PeriodicTask) : values_of self !! "crontab" = None.
Proof. reflexivity. Qed.

Lemma values_cron (self : PeriodicTask) :
  values_of self !! "cron" = Some (optional PCrontabSchedule (cron self)).
Proof. reflexivity. Qed.

Lemma values_solar (self : PeriodicTask) :
  values_of self !! "solar" = Some (optional PSolarSchedule (solar self)).
Proof. reflexivity. Qed.

Lemma values_clocked (self : PeriodicTask) :
  values_of self !! "clocked" = Some (optional PClockedSchedule (clocked self)).
Proof. reflexivity. Qed.

Lemma values_one_off (self : PeriodicTask) :
  values_of self !! "one_off" = Some (PBool (one_off self)).
Proof. reflexivity. Qed.

Lemma values_expires_seconds (self : PeriodicTask) :
  values_of self !! "expires_seconds" = None.
Proof. reflexivity. Qed.

Lemma values_expire_seconds (self : PeriodicTask) :
  values_of self !! "expire_seconds" = Some (optional PInt (expire_seconds self)).
Proof. reflexivity. Qed.

(** The first rule on an arbitrary dictionary: nothing under the four keys
    takes the missing-schedule raise, two or more take the multiplicity
    raise with one entry per key that is set. *)
Lemma rule_one_schedule_none (values : gmap string pyval) :
  selected_schedule_types values = [] ->
  validate_unique values = raise_ValidationError (ErrMsg missing_msg).
Proof.
  intros Hnone. unfold validate_unique, rule_one_schedule. now rewrite Hnone.
Qed.

Lemma rule_one_schedule_many (values : gmap string pyval) :
  (2 <= length (selected_schedule_types values))%nat ->
  validate_unique values
  = raise_ValidationError
      (ErrInfo (map (fun s => (s, [err_msg])) (selected_schedule_types values))).
Proof.
  intros Hmany. unfold validate_unique, rule_one_schedule.
  destruct (selected_schedule_types values) as [| a [| b rest]]; cbn in *;
    [lia | lia | reflexivity].
Qed.

Lemma selected_iff (values : gmap string pyval) (s : string) :
  In s (selected_schedule_types values) <->
  In s schedule_types /\ dict_get values s <> PNone.
Proof.
  unfold selected_schedule_types. rewrite filter_In.
  destruct (dict_get values s); cbn; intuition congruence.
Qed.

(** The validator reads the key ["crontab"], the record stores the
    reference under [cron]: for the dictionary of a record that key is
    never selected. *)
Lemma crontab_never_selected (self : PeriodicTask) :
  ~ In "crontab" (selected_schedule_types (values_of self)).
Proof.
  rewrite selected_iff. unfold dict_get. rewrite values_crontab.
  cbn. tauto.
Qed.

Lemma validate_no_schedule (self : PeriodicTask) :
  interval self = None -> solar self = None -> clocked self = None ->
  validate self = raise_ValidationError (ErrMsg missing_msg).
Proof.
  intros Hi Hs Hk. apply rule_one_schedule_none.
  unfold selected_schedule_types, dict_get; cbn [List.filter schedule_types].
  rewrite values_interval, values_crontab, values_solar, values_clocked.
  now rewrite Hi, Hs, Hk.
Qed.

(** Whatever [cron] holds, a record is validated as if it were unset: with
    [interval] as the only other reference the multiplicity check passes. *)
Lemma validate_interval_and_cron (self : PeriodicTask) :
  interval self <> None -> solar self = None -> clocked self = None ->
  rule_one_schedule (values_of self) = Return tt
  /\ validate self = Raise (KeyError "expires_seconds").
Proof.
  destruct self as [n t ii i ci c si s ki k q e r p x xs o st en lr cnt dc d nc].
  cbn. intros Hi -> ->. destruct i; [split; reflexivity | congruence].
Qed.


(** The dictionary the validator is given for a record: no key of a
    relationship, and none named ["crontab"] either. *)
Lemma validator_values_schedule_keys (self : PeriodicTask) (k : string) :
  In k schedule_types -> validator_values self !! k = None.
Proof.
  intros Hk. cbn in Hk.
  destruct Hk as [<- | [<- | [<- | [<- | []]]]]; reflexivity.
Qed.

Lemma validator_values_one_off (self : PeriodicTask) :
  validator_values self !! "one_off" = Some (PBool (one_off self)).
Proof. reflexivity. Qed.

(** The clocked rule on a dictionary that does hold its two keys, with
    ["clocked"] true and ["one_off"] false: the raise statement is taken,
    and what it raises is a [TypeError]. *)
Lemma clocked_rule_on_dictionary (values : gmap string pyval) (c : pyval) :
  values !! "clocked" = Some c -> truthy c = true ->
  values !! "one_off" = Some (PBool false) ->
  rule_clocked_one_off values = raise_ValidationError (ErrMsg clocked_msg)
  /\ exists msg, rule_clocked_one_off values = Raise (TypeError msg).
Proof.
  intros Hc Htrue Ho. unfold rule_clocked_one_off, getitem.
  rewrite Hc. cbn. rewrite Htrue, Ho. cbn. split; [reflexivity |].
  unfold raise_ValidationError. eauto.
Qed.

(** C4. The clocked-must-be-one-off rule is never applied to a record.
    The dictionary the validator is given holds none of the four schedule
    keys, so for every record the first rule takes its missing-schedule
    raise; the clocked rule is not reached, and on that dictionary it
    could not even read ["clocked"].  A clocked task with [one_off] false
    gets the very outcome of a clocked task with [one_off] true. *)
Theorem clocked_rule_never_reached (self : PeriodicTask) :
  selected_schedule_types (validator_values self) = []
  /\ (exists msg, validate_unique (validator_values self) = Raise (TypeError msg))
  /\ rule_clocked_one_off (validator_values self) = Raise (KeyError "clocked")
  /\ validate_unique (validator_values (clocked_task false))
     = validate_unique (validator_values (clocked_task true)).
Proof.
  assert (Hnone : selected_schedule_types (validator_values self) = []).
  { unfold selected_schedule_types, dict_get. cbn [List.filter schedule_types].
    rewrite (validator_values_schedule_keys self "interval") by (cbn; auto).
    rewrite (validator_values_schedule_keys self "crontab") by (cbn; auto).
    rewrite (validator_values_schedule_keys self "solar") by (cbn; auto).
    rewrite (validator_values_schedule_keys self "clocked") by (cbn; auto 6).
    reflexivity. }
  split; [exact Hnone | split; [| split]].
  - rewrite (rule_one_schedule_none _ Hnone). unfold raise_ValidationError. eauto.
  - unfold rule_clocked_one_off, getitem.
    rewrite (validator_values_schedule_keys self "clocked") by (cbn; auto 6).
    reflexivity.
  - reflexivity.
Qed.

(** The last rule on a dictionary that does hold the key it reads. *)
Lemma rule_expires_with_key (values : gmap string pyval) (s e : pyval) :
  values !! "expires_seconds" = Some s -> values !! "expires" = Some e ->
  rule_expires values
  = if is_not_None s && is_not_None e
    then raise_ValidationError (ErrMsg expires_msg) else Return tt.
Proof.
  intros Hs He. unfold rule_expires, getitem. rewrite Hs. cbn.
  destruct (is_not_None s); cbn; [| reflexivity].
  rewrite He. cbn. now destruct (is_not_None e).
Qed.


(** For the references found under the keys the validator reads, the
    multiplicity raise is given an entry for each one that is set. *)
Lemma validate_interval_and_solar (self : PeriodicTask) :
  interval self <> None -> solar self <> None -> clocked self = None ->
  validate self
  = raise_ValidationError (ErrInfo [("interval", [err_msg]); ("solar", [err_msg])]).
Proof.
  destruct self as [n t ii i ci c si s ki k q e r p x xs o st en lr cnt dc d nc].
  cbn. intros Hi Hs ->. destruct i, s; congruence || reflexivity.
Qed.

(** A record whose only reference is [cron] is reported as having none. *)
Lemma validate_cron_only :
  validate (with_schedules None (Some hourly) None None bare_task)
  = raise_ValidationError (ErrMsg missing_msg).
Proof. reflexivity. Qed.

(** ** models.py: [PeriodicTask.scheduler] and [PeriodicTask.schedule] *)

Lemma getattr_crontab (self : PeriodicTask) :
  getattr self "crontab" = Raise (AttributeError "crontab").
Proof. reflexivity. Qed.

Lemma scheduler_interval (self : PeriodicTask) (i : IntervalSchedule) :
  interval self = Some i -> scheduler self = Return (PIntervalSchedule i).
Proof.
  destruct self as [n t ii i0 ci c si s ki k q e r p x xs o st en lr cnt dc d nc].
  cbn. now intros ->.
Qed.

Lemma scheduler_without_interval (self : PeriodicTask) :
  interval self = None -> scheduler self = Raise (AttributeError "crontab").
Proof.
  destruct self as [n t ii i0 ci c si s ki k q e r p x xs o st en lr cnt dc d nc].
  cbn. now intros ->.
Qed.

Lemma schedule_without_interval (self : PeriodicTask) :
  interval self = None -> schedule self = Raise (AttributeError "crontab").
Proof.
  intros Hi. unfold schedule. now rewrite scheduler_without_interval.
Qed.

(** C10. [scheduler] reads [self.crontab] right after [self.interval]; the
    class has no such attribute.  With all four references unset it raises
    [AttributeError] instead of returning [None], and with only [solar]
    set it raises instead of returning the solar schedule; only a set
    [interval] is ever returned. *)
Theorem scheduler_attribute_error :
  scheduler bare_task = Raise (AttributeError "crontab")
  /\ schedule bare_task = Raise (AttributeError "crontab")
  /\ scheduler solar_task = Raise (AttributeError "crontab")
  /\ scheduler (with_schedules None (Some hourly) None None bare_task)
     = Raise (AttributeError "crontab")
  /\ scheduler (clocked_task true) = Raise (AttributeError "crontab")
  /\ scheduler interval_task = Return (PIntervalSchedule every_10_seconds).
Proof. repeat split. Qed.

(** ** models.py: the change tracker *)

Section Tracker.
Context {S : Type} `{Orm S}.

Lemma changed_one_argument (u : Z -> datetime -> M S unit) (clock : Z)
    (a : pyarg) (s : S) :
  changed u clock [a] s
  = (Raise (TypeError "changed() missing 1 required positional argument: 'instance'"), s).
Proof. reflexivity. Qed.

Lemma update_changed_no_argument (u : Z -> datetime -> M S unit) (clock : Z) (s : S) :
  update_changed u clock [] s
  = (Raise (TypeError "update_changed() missing 1 required positional argument: 'session'"), s).
Proof. reflexivity. Qed.

(** Even with both arguments supplied, [changed] calls [update_changed]
    without its [session] argument. *)
Lemma changed_two_arguments (u : Z -> datetime -> M S unit) (clock : Z)
    (a : pyarg) (instance : PeriodicTask) (s : S) :
  no_changes instance = false ->
  exists e, changed u clock [a; ArgTask instance] s = (Raise e, s).
Proof.
  intros Hnc. unfold changed, arg_no_changes, lift, mbind, M_bind.
  destruct instance. cbn in *. subst. cbn. eauto.
Qed.

Lemma last_change_get_None (s s' : S) :
  session_get 1 s = (Return None, s') ->
  last_change s = (Raise (AttributeError "last_update"), s').
Proof.
  intros Hget. unfold last_change, try_except, mbind, M_bind. now rewrite Hget.
Qed.

End Tracker.

(** When the session hands back the row, [last_change] returns its
    [last_update]. *)
Lemma last_change_found {S : Type} `{Orm S} (s s' : S) (row : PeriodicTasksChanged) :
  session_get 1 s = (Return (Some row), s') ->
  last_change s = (Return (Some (last_update row)), s').
Proof.
  intros Hget. unfold last_change, try_except, mbind, M_bind. now rewrite Hget.
Qed.

(** C7. When the session answers the lookup of a missing row with [None],
    [last_change] does not return [None]: it reads [last_update] off that
    [None] and raises [AttributeError].  The only way [last_change]
    returns [None] is a lookup that raises [NoResultFound]. *)
Theorem last_change_missing_row {S : Type} `{Orm S} (s s' : S) :
  (session_get 1 s = (Return None, s') ->
   last_change s = (Raise (AttributeError "last_update"), s'))
  /\ (last_change s = (Return None, s') <->
      session_get 1 s = (Raise NoResultFound, s')).
Proof.
  unfold last_change, try_except, mbind, M_bind.
  destruct (session_get 1 s) as [[[row |] | e] s1]; cbn.
  - split; [discriminate | split; discriminate].
  - split; [intros Hget; injection Hget as <-; reflexivity | split; discriminate].
  - split; [discriminate |].
    destruct e; cbn; split; intros Heq; try discriminate Heq;
      injection Heq as <-; reflexivity.
Qed.

Lemma last_change_missing_row_witness :
  tracker empty_store = None
  /\ last_change empty_store = (Raise (AttributeError "last_update"), empty_store).
Proof.
  split; [reflexivity |].
  apply (proj1 (last_change_missing_row empty_store empty_store)). reflexivity.
Defined.

(** In the in-memory session: a row written, its timestamp; no row
    written, the [AttributeError]. *)
Lemma Store_last_change (s : Store) :
  last_change s
  = (match tracker s with
     | Some r => if ident r =? 1 then Return (Some (last_update r))
                 else Raise (AttributeError "last_update")
     | None => Raise (AttributeError "last_update")
     end, s).
Proof.
  unfold last_change, try_except, mbind, M_bind. cbn. unfold Store_get.
  destruct (tracker s) as [r |]; [| reflexivity].
  now destruct (ident r =? 1).
Qed.

(** ** models.py: [PeriodicTask.save] and [PeriodicTask.delete] *)

(** C2. [save] and [delete] call [PeriodicTasksChanged.changed(self)],
    one argument short: over every session, whatever the upsert behind
    [update_changed] does, both operations end by raising, and their whole
    effect is the same for any two upserts, so the tracker row is never
    written by them. *)
Theorem save_delete_never_notify {S : Type} `{Orm S}
    (u u' : Z -> datetime -> M S unit) (clock : Z) (self : PeriodicTask) (s : S) :
  save u clock self s = save u' clock self s
  /\ delete u clock self s = delete u' clock self s
  /\ (exists e, fst (fst (save u clock self s)) = Raise e)
  /\ (exists e, fst (delete u clock self s) = Raise e).
Proof.
  unfold save, delete, mbind, M_bind.
  split; [reflexivity | split; [reflexivity | split]].
  - destruct (session_add _ s) as [[[] | e1] s1]; cbn; eauto.
    destruct (session_commit s1) as [[[] | e2] s2]; cbn; eauto.
  - destruct (session_delete self s) as [[[] | e1] s1]; cbn; eauto.
Qed.

(** In the in-memory session the tracker row is what it was before. *)
Lemma Store_save_tracker (u : Z -> datetime -> M Store unit) (clock : Z)
    (self : PeriodicTask) (s : Store) :
  tracker (snd (save u clock self s)) = tracker s
  /\ tracker (snd (delete u clock self s)) = tracker s.
Proof. split; reflexivity. Qed.

(** A first save at time 100 into an empty session: the call raises after
    the commit, and [last_change] still finds no row. *)
Lemma save_then_last_change :
  let '(r, _, s') := save Store_update_or_create 100 interval_task empty_store in
  r = Raise (TypeError "changed() missing 1 required positional argument: 'instance'")
  /\ rows s' = [interval_task]
  /\ fst (last_change s') = Raise (AttributeError "last_update").
Proof. repeat split. Qed.

Lemma delete_then_last_change :
  let '(r, s') := delete Store_update_or_create 100 interval_task empty_store in
  r = Raise (TypeError "changed() missing 1 required positional argument: 'instance'")
  /\ removed s' = [interval_task]
  /\ fst (last_change s') = Raise (AttributeError "last_update").
Proof. repeat split. Qed.

(** The object [save] leaves behind, over any session. *)
Lemma save_self {S : Type} `{Orm S} (u : Z -> datetime -> M S unit) (clock : Z)
    (self : PeriodicTask) (s : S) :
  snd (fst (save u clock self s))
  = if enabled self then self else set_last_run_at None self.
Proof.
  unfold save. destruct (enabled self); cbn;
    match goal with |- context [let '(_, _) := ?m in _] => destruct m end;
    reflexivity.
Qed.

(** C6. [save] on a disabled task sets [last_run_at] to [None] before the
    record is handed to the session: the record the session receives and
    commits is the one with [last_run_at] cleared.  On an enabled task the
    record is persisted as it is, [last_run_at] included. *)
Theorem save_clears_last_run_at (u : Z -> datetime -> M Store unit) (clock : Z)
    (self : PeriodicTask) (s : Store) :
  let self' := snd (fst (save u clock self s)) in
  let s' := snd (save u clock self s) in
  rows s' = (rows s ++ pending s ++ [self'])%list
  /\ (enabled self = false ->
      last_run_at self' = None /\ self' = set_last_run_at None self)
  /\ (enabled self = true ->
      last_run_at self' = last_run_at self /\ self' = self).
Proof.
  cbn zeta. rewrite save_self.
  unfold save, mbind, M_bind; cbn.
  destruct (enabled self); cbn; repeat split; congruence.
Qed.

Lemma save_clears_last_run_at_witness :
  last_run_at disabled_task = Some (epoch 50)
  /\ last_run_at (snd (fst (save Store_update_or_create 100 disabled_task empty_store)))
     = None
  /\ last_run_at (snd (fst (save Store_update_or_create 100 interval_task empty_store)))
     = last_run_at interval_task.
Proof.
  split; [reflexivity | split].
  - apply (save_clears_last_run_at Store_update_or_create 100 disabled_task empty_store).
    reflexivity.
  - apply (save_clears_last_run_at Store_update_or_create 100 interval_task empty_store).
    reflexivity.
Defined.

(** * Further properties *)

(** ** models.py: [cronexp] *)

Lemma remove_spaces_no_space (s : string) : has_no_space (remove_spaces s).
Proof.
  unfold has_no_space. induction s as [| c rest IH]; cbn; [tauto |].
  destruct (Ascii.eqb_spec c " "%char) as [-> | Hc]; cbn; [exact IH |].
  intros [Heq | Hin]; [congruence | tauto].
Qed.

Lemma remove_spaces_id (s : string) : has_no_space s -> remove_spaces s = s.
Proof.
  unfold has_no_space. induction s as [| c rest IH]; cbn; [reflexivity |].
  intros Hno. destruct (Ascii.eqb_spec c " "%char) as [-> | Hc].
  - exfalso. apply Hno. now left.
  - f_equal. apply IH. intros Hin. apply Hno. now right.
Qed.

Lemma cronexp_unfold (field : string) :
  cronexp field = if str_truthy (remove_spaces field) then remove_spaces field else "*".
Proof.
  unfold cronexp. destruct field as [| c rest]; reflexivity.
Qed.

Lemma star_no_space : has_no_space "*".
Proof. unfold has_no_space. cbn. intros [Heq | []]. discriminate Heq. Qed.

Lemma cronexp_not_empty (field : string) : cronexp field <> "".
Proof.
  rewrite cronexp_unfold. unfold str_truthy.
  destruct (String.eqb_spec (remove_spaces field) "") as [Hempty | Hfull]; cbn;
    [discriminate | exact Hfull].
Qed.

Lemma cronexp_no_space (field : string) : has_no_space (cronexp field).
Proof.
  rewrite cronexp_unfold.
  destruct (str_truthy (remove_spaces field));
    [apply remove_spaces_no_space | apply star_no_space].
Qed.

(** X1. Whatever the field holds, [cronexp] returns a string that is not
    empty and contains no space. *)
Theorem cronexp_nonempty_no_space (field : string) :
  cronexp field <> "" /\ has_no_space (cronexp field).
Proof.
  split.
  - apply cronexp_not_empty.
  - apply cronexp_no_space.
Qed.

(** X2. [cronexp] is idempotent: normalising a normalised field changes
    nothing. *)
Theorem cronexp_idempotent (field : string) :
  cronexp (cronexp field) = cronexp field.
Proof.
  assert (Hne := cronexp_not_empty field).
  assert (Hns := cronexp_no_space field).
  rewrite (cronexp_unfold (cronexp field)), (remove_spaces_id _ Hns).
  unfold str_truthy. now destruct (String.eqb_spec (cronexp field) "").
Qed.

(** X3. A field made of spaces only (the empty field included) becomes
    ["*"], and a non-empty field without spaces is returned as it is. *)
Theorem cronexp_blank_or_kept (field : string) :
  (remove_spaces field = "" -> cronexp field = "*")
  /\ (field <> "" -> has_no_space field -> cronexp field = field).
Proof.
  split.
  - intros Hblank. rewrite cronexp_unfold, Hblank. reflexivity.
  - intros Hne Hns. rewrite cronexp_unfold, (remove_spaces_id _ Hns).
    unfold str_truthy. now destruct (String.eqb_spec field "").
Qed.

Lemma cronexp_blank_or_kept_witness :
  cronexp "   " = "*" /\ cronexp "*/15" = "*/15".
Proof.
  split.
  - apply (cronexp_blank_or_kept "   "). reflexivity.
  - apply (cronexp_blank_or_kept "*/15"); [discriminate |].
    unfold has_no_space. cbn. intros Hin.
    repeat (destruct Hin as [Heq | Hin]; [discriminate Heq |]). exact Hin.
Defined.

(** ** models.py: [CrontabSchedule.__str__] and [human_readable] *)

Lemma split_on_no_space (s : string) :
  has_no_space s -> split_on " " s = [s].
Proof.
  unfold has_no_space. induction s as [| c rest IH]; cbn; [reflexivity |].
  intros Hno. destruct (Ascii.eqb_spec c " "%char) as [-> | Hc].
  - exfalso. apply Hno. now left.
  - rewrite IH; [reflexivity |]. intros Hin. apply Hno. now right.
Qed.

Lemma split_on_app (s rest : string) :
  has_no_space s ->
  split_on " " (s ++ String " " rest) = s :: split_on " " rest.
Proof.
  unfold has_no_space. induction s as [| c s' IH]; [reflexivity |].
  intros Hno.
  change (String c s' ++ String " " rest) with (String c (s' ++ String " " rest)).
  cbn [split_on list_ascii_of_string In] in Hno |- *.
  destruct (Ascii.eqb_spec c " "%char) as [-> | Hc].
  - exfalso. apply Hno. now left.
  - rewrite IH; [reflexivity |]. intros Hin. apply Hno. now right.
Qed.

(** X4. Splitting the cron expression on spaces gives back exactly the
    five normalised fields, in the order minute, hour, day of month, month
    of year, day of week: spaces inside a stored field never add or merge
    fields. *)
Theorem cron_expression_fields (self : CrontabSchedule) :
  split_on " " (cron_expression self) = cron_fields self.
Proof.
  unfold cron_expression, cron_fields.
  change (String.append " ") with (String " "%char).
  repeat (rewrite split_on_app by apply cronexp_no_space).
  rewrite split_on_no_space by apply cronexp_no_space.
  reflexivity.
Qed.

(** X5. [CrontabSchedule.__str__] and [human_readable] read
    [self.timezone], an attribute the class does not declare: [__str__]
    raises [AttributeError] for every schedule, and [human_readable] never
    returns either (it raises [AttributeError], or the exception of
    [get_description] that it does not catch). *)
Theorem crontab_str_raises (get_description : string -> result string)
    (caught : exn -> bool) (self : CrontabSchedule) :
  CrontabSchedule_str self = Raise (AttributeError "timezone")
  /\ (human_readable get_description caught self = Raise (AttributeError "timezone")
      \/ exists e, get_description (cron_expression self) = Raise e
                   /\ caught e = false
                   /\ human_readable get_description caught self = Raise e).
Proof.
  split; [reflexivity |].
  unfold human_readable.
  destruct (get_description (cron_expression self)) as [d | e]; [now left |].
  destruct (caught e) eqn:Hc; [now left | right; eauto].
Qed.

(** ** models.py: the four characters per value of the crontab columns *)

Lemma decimal_two_digits (n : nat) :
  (n < 100)%nat -> (String.length (decimal n) <= 2)%nat.
Proof.
  intros Hn.
  assert (Hall : forallb (fun k => (String.length (decimal k) <=? 2)%nat) (seq 0 100) = true)
    by (vm_compute; reflexivity).
  rewrite forallb_forall in Hall.
  apply Nat.leb_le, Hall, in_seq. lia.
Qed.

Lemma length_append (s1 s2 : string) :
  String.length (s1 ++ s2) = (String.length s1 + String.length s2)%nat.
Proof.
  induction s1 as [| c s1 IH]; [reflexivity |].
  change (String c s1 ++ s2) with (String c (s1 ++ s2)).
  cbn [String.length]. now rewrite IH.
Qed.

Lemma comma_join_length (l : list string) :
  l <> [] -> Forall (fun x => (String.length x <= 2)%nat) l ->
  (String.length (comma_join l) + 2 <= 4 * length l)%nat.
Proof.
  induction l as [| x rest IH]; [congruence |].
  intros _ Hall. inversion Hall as [| ? ? Hx Hrest]; subst.
  destruct rest as [| y rest'].
  - cbn. lia.
  - change (comma_join (x :: y :: rest')) with (x ++ ", " ++ comma_join (y :: rest')).
    rewrite !length_append.
    assert (Hrec := IH ltac:(discriminate) Hrest).
    cbn [length String.length] in *. lia.
Qed.

(** X6. The source's rule of four characters per value holds for every
    list, not only the full ranges: the text of a non-empty list of values
    below 100 is at most four characters per element long, so it is
    admitted by every column wide enough for that many values. *)
Theorem list_repr_fits (f : crontab_field) (l : list nat) :
  l <> [] -> Forall (fun n => (n < 100)%nat) l ->
  (4 * length l <= max_length f)%nat ->
  (String.length (list_repr l) <= 4 * length l)%nat
  /\ check_max_length f (list_repr l) = Return (list_repr l).
Proof.
  intros Hne Hsmall Hwide.
  assert (Hlen : (String.length (list_repr l) <= 4 * length l)%nat).
  { unfold list_repr. rewrite !length_append.
    assert (Hj := comma_join_length (map decimal l)).
    rewrite length_map in Hj.
    assert (Hmap : map decimal l <> []) by (destruct l; [congruence | discriminate]).
    specialize (Hj Hmap).
    assert (Hdigits : Forall (fun x => (String.length x <= 2)%nat) (map decimal l)).
    { apply Forall_map. apply Forall_forall. intros n Hin.
      apply decimal_two_digits.
      rewrite Forall_forall in Hsmall. now apply Hsmall. }
    specialize (Hj Hdigits). cbn [String.length]. lia. }
  split; [exact Hlen |].
  unfold check_max_length.
  destruct (Nat.leb_spec (String.length (list_repr l)) (max_length f)); [reflexivity | lia].
Qed.

Lemma list_repr_fits_witness :
  check_max_length F_hour (list_repr [23; 0; 12; 12]%nat) = Return "[23, 0, 12, 12]".
Proof.
  apply (list_repr_fits F_hour [23; 0; 12; 12]%nat).
  - discriminate.
  - repeat constructor; lia.
  - vm_compute. lia.
Defined.

(** ** models.py: what the coordinate validators accept *)

Lemma range_check_passes (lo hi : Z) (v : pyfloat) :
  float_lt_int v lo || float_gt_int v hi = false <-> within lo hi v \/ v = NaN.
Proof.
  split.
  - intros Hpass. apply orb_false_iff in Hpass. destruct Hpass as [Hlt Hgt].
    destruct v as [q | negative |].
    + left. cbn. split; apply Qnot_lt_le; intros Hbad.
      * apply (float_lt_int_spec (Finite q) lo) in Hbad. congruence.
      * apply (float_gt_int_spec (Finite q) hi) in Hbad. congruence.
    + cbn in Hlt, Hgt. destruct negative; discriminate.
    + now right.
  - intros [Hin | ->]; [now apply within_accepted | reflexivity].
Qed.

Lemma validate_latitude_accepts (v : pyfloat) :
  validate_latitude v = Return v <-> within (-90) 90 v \/ v = NaN.
Proof.
  unfold validate_latitude. rewrite <- range_check_passes.
  destruct (float_lt_int v (-90) || float_gt_int v 90);
    split; congruence || discriminate.
Qed.

Lemma validate_longitude_accepts (v : pyfloat) :
  validate_longitude v = Return v <-> within (-180) 180 v \/ v = NaN.
Proof.
  unfold validate_longitude. rewrite <- range_check_passes.
  destruct (float_lt_int v (-180) || float_gt_int v 180);
    split; congruence || discriminate.
Qed.

(** X7. [validate_latitude] returns its argument exactly for the finite
    values of [-90, 90] and for NaN, and [validate_longitude] exactly for
    the finite values of [-180, 180] and for NaN; on every other float
    they raise their [ValueError]. *)
Theorem coordinate_validators_accept (v : pyfloat) :
  (validate_latitude v = Return v <-> within (-90) 90 v \/ v = NaN)
  /\ (validate_longitude v = Return v <-> within (-180) 180 v \/ v = NaN)
  /\ (validate_latitude v = Return v
      \/ validate_latitude v = Raise (ValueError "latitude must be between -90 and 90"))
  /\ (validate_longitude v = Return v
      \/ validate_longitude v = Raise (ValueError "longitude must be between -180 and 180")).
Proof.
  split; [apply validate_latitude_accepts |].
  split; [apply validate_longitude_accepts |].
  unfold validate_latitude, validate_longitude.
  destruct (float_lt_int v (-90) || float_gt_int v 90),
           (float_lt_int v (-180) || float_gt_int v 180); split; tauto.
Qed.

(** X8. Every value that [validate_latitude] accepts is accepted by
    [validate_longitude] as well. *)
Theorem latitude_is_longitude (v : pyfloat) :
  validate_latitude v = Return v -> validate_longitude v = Return v.
Proof.
  intros Hlat.
  apply validate_latitude_accepts in Hlat.
  apply validate_longitude_accepts.
  destruct Hlat as [Hin | ->]; [left | now right].
  destruct v as [q | |]; cbn in *; try tauto.
  destruct Hin as [Hlo Hhi]. split.
  - eapply Qle_trans; [| exact Hlo]. discriminate.
  - eapply Qle_trans; [exact Hhi |]. discriminate.
Qed.

Lemma latitude_is_longitude_witness :
  validate_longitude (latitude sunrise_nyc) = Return (latitude sunrise_nyc).
Proof.
  apply (latitude_is_longitude (latitude sunrise_nyc)). reflexivity.
Defined.

(** ** models.py: [validate_unique] on any dictionary *)

(** X9. On any dictionary, [validate_unique] returns (and then returns
    [None]) exactly when one of the four schedule keys is set, the keys
    ["clocked"] and ["expires_seconds"] are present, a true ["clocked"]
    comes with a true ["one_off"], and a set ["expires_seconds"] comes with
    an ["expires"] that is [None]. *)
Theorem validate_unique_accepts (values : gmap string pyval) :
  validate_unique values = Return PNone <->
  length (selected_schedule_types values) = 1%nat
  /\ (exists c, values !! "clocked" = Some c
                /\ (truthy c = true ->
                    exists o, values !! "one_off" = Some o /\ truthy o = true))
  /\ (exists s, values !! "expires_seconds" = Some s
                /\ (is_not_None s = true ->
                    exists e, values !! "expires" = Some e /\ is_not_None e = false)).
Proof.
  unfold validate_unique, rule_one_schedule, rule_clocked_one_off, rule_expires, getitem.
  destruct (selected_schedule_types values) as [| a [| b rest]]; cbn;
    [split; [discriminate | intros [Habs _]; discriminate Habs] | |
     split; [discriminate | intros [Habs _]; discriminate Habs]].
  destruct (values !! "clocked") as [c |]; cbn;
    [| split; [discriminate | intros (_ & (c & Habs & _) & _); discriminate Habs]].
  destruct (values !! "expires_seconds") as [s |] eqn:Hs; cbn.
  - destruct (truthy c) eqn:Hc; cbn.
    + destruct (values !! "one_off") as [o |]; cbn.
      * destruct (truthy o) eqn:Ho; cbn.
        -- destruct (is_not_None s) eqn:Hnn; cbn.
           ++ destruct (values !! "expires") as [e |]; cbn.
              ** destruct (is_not_None e) eqn:He; cbn.
                 --- split; [discriminate |].
                     intros (_ & _ & (s' & Hs' & Hexp)). injection Hs' as <-.
                     destruct (Hexp Hnn) as (e' & He' & Hnone).
                     injection He' as <-. congruence.
                 --- split; [| reflexivity]. intros _.
                     split; [reflexivity | split]; eauto 10.
              ** split; [discriminate |].
                 intros (_ & _ & (s' & Hs' & Hexp)). injection Hs' as <-.
                 destruct (Hexp Hnn) as (e' & He' & _). discriminate He'.
           ++ split; [| reflexivity]. intros _.
              split; [reflexivity | split]; [eauto 10 |].
              exists s. split; [reflexivity | congruence].
        -- split; [discriminate |].
           intros (_ & (c' & Hc' & Hone) & _). injection Hc' as <-.
           destruct (Hone Hc) as (o' & Ho' & Htrue). injection Ho' as <-. congruence.
      * split; [discriminate |].
        intros (_ & (c' & Hc' & Hone) & _). injection Hc' as <-.
        destruct (Hone Hc) as (o' & Ho' & _). discriminate Ho'.
    + destruct (is_not_None s) eqn:Hnn; cbn.
      * destruct (values !! "expires") as [e |]; cbn.
        -- destruct (is_not_None e) eqn:He; cbn.
           ++ split; [discriminate |].
              intros (_ & _ & (s' & Hs' & Hexp)). injection Hs' as <-.
              destruct (Hexp Hnn) as (e' & He' & Hnone).
              injection He' as <-. congruence.
           ++ split; [| reflexivity]. intros _.
              split; [reflexivity | split].
              ** exists c. split; [reflexivity | congruence].
              ** eauto 10.
        -- split; [discriminate |].
           intros (_ & _ & (s' & Hs' & Hexp)). injection Hs' as <-.
           destruct (Hexp Hnn) as (e' & He' & _). discriminate He'.
      * split; [| reflexivity]. intros _.
        split; [reflexivity | split].
        -- exists c. split; [reflexivity | congruence].
        -- exists s. split; [reflexivity | congruence].
  - split.
    + destruct (truthy c); cbn; [| discriminate].
      destruct (values !! "one_off") as [o |]; cbn; [| discriminate].
      destruct (truthy o); cbn; discriminate.
    + intros (_ & _ & (s' & Hs' & _)). discriminate Hs'.
Qed.

Lemma validate_unique_accepts_witness : validate_unique sample_values = Return PNone.
Proof.
  apply (validate_unique_accepts sample_values).
  split; [reflexivity | split].
  - exists PNone. split; [reflexivity | discriminate].
  - exists (PInt 60). split; [reflexivity |]. intros _.
    exists PNone. split; reflexivity.
Defined.

(** X10. On no dictionary does [validate_unique] raise a
    [ValidationError]: it returns [None], or raises a [KeyError] or a
    [TypeError].  Unless exactly one of the four keys is set, the outcome
    is the [TypeError] of a raise statement of the first rule. *)
Theorem validate_unique_outcomes (values : gmap string pyval) :
  (validate_unique values = Return PNone
   \/ (exists k, validate_unique values = Raise (KeyError k))
   \/ (exists msg, validate_unique values = Raise (TypeError msg)))
  /\ (forall errors, validate_unique values <> Raise (ValidationError errors))
  /\ (length (selected_schedule_types values) <> 1%nat ->
      exists msg, validate_unique values = Raise (TypeError msg)).
Proof.
  unfold validate_unique, rule_one_schedule, rule_clocked_one_off, rule_expires,
    getitem, raise_ValidationError.
  destruct (selected_schedule_types values) as [| a [| b rest]]; cbn;
    destruct (values !! "clocked") as [c |]; cbn;
    try destruct (truthy c); cbn;
    destruct (values !! "one_off") as [o |]; cbn;
    try destruct (truthy o); cbn;
    destruct (values !! "expires_seconds") as [s |]; cbn;
    try destruct (is_not_None s); cbn;
    destruct (values !! "expires") as [e |]; cbn;
    try destruct (is_not_None e); cbn;
    (split; [eauto 6 | split; [discriminate | intros Hlen; first [congruence | eauto]]]).
Qed.

Lemma validate_unique_outcomes_witness :
  exists msg,
    validate_unique (<["solar" := PSolarSchedule sunrise_nyc]> sample_values)
    = Raise (TypeError msg).
Proof.
  apply (validate_unique_outcomes (<["solar" := PSolarSchedule sunrise_nyc]> sample_values)).
  vm_compute. intros Habs. discriminate Habs.
Defined.

(** ** models.py: the change tracker, called with its arguments *)

(** X12. Called with both of its arguments, [changed] still never
    reaches the upsert: for an instance with [no_changes] set it returns
    at once, otherwise it raises the [TypeError] of calling
    [update_changed] without a session; the session is left as it was. *)
Theorem changed_never_updates {S : Type} `{Orm S}
    (u : Z -> datetime -> M S unit) (clock : Z) (a : pyarg)
    (instance : PeriodicTask) (s : S) :
  changed u clock [a; ArgTask instance] s
  = (if no_changes instance then Return tt
     else Raise (TypeError "update_changed() missing 1 required positional argument: 'session'"),
     s).
Proof.
  unfold changed, arg_no_changes, lift, mbind, M_bind.
  destruct instance as [n t ii i ci c si sl ki k q e r p x xs o st en lr cnt dc d nc].
  cbn. now destruct nc.
Qed.

(** X13. [update_changed] never writes the tracker row.  Called with its
    session it looks up [cls.objects], which the class does not have, and
    raises [AttributeError]; called with any other number of arguments it
    raises [TypeError].  In every case the session is left as it was,
    whatever the upsert would do. *)
Theorem update_changed_always_raises {S : Type} `{Orm S}
    (u : Z -> datetime -> M S unit) (clock : Z) (args : list pyarg) (s : S) :
  (exists e, update_changed u clock args s = (Raise e, s))
  /\ (forall a, update_changed u clock [a] s = (Raise (AttributeError "objects"), s)).
Proof.
  split; [| reflexivity].
  destruct args as [| a [| b rest]]; cbn; eauto.
Qed.

(** ** models.py: [PeriodicTask.expires_] and [PeriodicTask.__str__] *)

(** X14. [expires_] is [None] only when neither expiry is set; a set
    [expires] wins over [expire_seconds], and an [expire_seconds] of zero
    is returned as zero, not dropped. *)
Theorem expires__spec (self : PeriodicTask) :
  (expires_ self = PNone <-> expires self = None /\ expire_seconds self = None)
  /\ (forall d, expires self = Some d -> expires_ self = PDatetime d)
  /\ (expires self = None -> expire_seconds self = Some 0 -> expires_ self = PInt 0).
Proof.
  unfold expires_.
  destruct (expires self) as [d |], (expire_seconds self) as [n |]; cbn;
    repeat split; try congruence; try discriminate;
    try (intros [Ha Hb]; discriminate).
Qed.

Lemma expires__spec_witness :
  expires_ both_expiries_task = PDatetime (epoch 900).
Proof.
  apply (proj1 (proj2 (expires__spec both_expiries_task))). reflexivity.
Defined.

(** X15. [PeriodicTask.__str__] reads [self.crontab] whether or not
    [interval] is set, so it raises [AttributeError] for every record,
    whatever the formatting would do. *)
Theorem PeriodicTask_str_raises (format : string -> PeriodicTask -> result string)
    (self : PeriodicTask) :
  PeriodicTask_str format self = Raise (AttributeError "crontab").
Proof.
  destruct self as [n t ii i ci c si s ki k q e r p x xs o st en lr cnt dc d nc].
  reflexivity.
Qed.

(** ** util.py: [make_aware] *)

(** X16. [make_aware] returns exactly on naive datetimes; what it returns
    denotes the same instant and is timezone-aware, so feeding a result of
    [make_aware] back to it always raises. *)
Theorem make_aware_once (value : datetime) :
  ((exists d, make_aware value = Return d) <-> tzinfo value = None)
  /\ (forall d, make_aware value = Return d ->
                instant d = instant value
                /\ tzinfo d = Some (ZoneInfo "UTC")
                /\ make_aware d = Raise (AttributeError "localize")).
Proof.
  unfold make_aware at 1 2. destruct value as [t [z |]]; cbn.
  - split; [split; [intros [d Hd]; discriminate Hd | discriminate] |].
    intros d Hd. discriminate Hd.
  - split; [split; eauto |].
    intros d Hd. injection Hd as <-. repeat split.
Qed.

Lemma make_aware_once_witness :
  make_aware (replace_tzinfo (utcnow 7) (ZoneInfo "UTC"))
  = Raise (AttributeError "localize").
Proof.
  apply (proj2 (make_aware_once (utcnow 7)) (replace_tzinfo (utcnow 7) (ZoneInfo "UTC"))).
  reflexivity.
Defined.

(** ** models.py: what [save] and [delete] leave in the session *)

(** X17. Although both end by raising, [save] leaves the session exactly
    as [ModelMixin.save] of the record (with [last_run_at] cleared when
    disabled) leaves it, commit included, and [delete] leaves it exactly
    as [session.delete] does: no commit follows a delete. *)
Theorem save_delete_session {S : Type} `{Orm S}
    (u : Z -> datetime -> M S unit) (clock : Z) (self : PeriodicTask) (s : S) :
  snd (save u clock self s)
  = snd (ModelMixin_save (if enabled self then self else set_last_run_at None self) s)
  /\ snd (delete u clock self s) = snd (session_delete self s).
Proof.
  unfold save, delete, ModelMixin_save, mbind, M_bind. split.
  - destruct (enabled self); cbn;
      match goal with |- context [session_add ?t s] =>
        destruct (session_add t s) as [[[] | e1] s1] end; cbn; try reflexivity;
      destruct (session_commit s1) as [[[] | e2] s2]; reflexivity.
  - destruct (session_delete self s) as [[[] | e1] s1]; reflexivity.
Qed.
